(** * VoiceEquation: the recording buffer, the formatter and the controller

    A shallow embedding of [app.py].  The program is a desktop utility: it
    records audio from the microphone, writes it to a temporary wave file,
    has a speech model transcribe the file and asks a remote chat model for
    the LaTeX form of the transcript.

    Python objects become records, methods become state transformers in a
    small state-and-exception monad (the state survives a raised exception,
    as the attributes of a Python object do), and the collaborators the
    program only calls (PortAudio, the speech model, the chat endpoint, the
    clock) answer through an [Oracle] that each handler receives. *)

From Stdlib Require Import ZArith String Ascii DecimalString.
From stdpp Require Import base option list gmap strings.

Local Open Scope Z_scope.

(** ** Exceptions and the monad of method bodies *)

(** A raised Python exception: its class and the text [str(e)] gives.  The
    exceptions followed are instances of [Exception], the ones the
    collaborators raise when they fail; an interrupt or an interpreter
    exit, which an [except Exception] lets through, is not among them. *)
Record exn := Exn { exn_class : string; exn_str : string }.

Inductive result (A : Type) :=
| Ok (a : A)
| Raise (e : exn).
Arguments Ok {A} a.
Arguments Raise {A} e.

(** A method body over the state [S]: it returns or raises, and in both
    cases leaves a state behind. *)
Definition M (S A : Type) : Type := S → result A * S.

Global Instance M_ret {S} : MRet (M S) := λ A a s, (Ok a, s).

Global Instance M_bind {S} : MBind (M S) := λ A B k m s,
  match m s with
  | (Ok a, s') => k a s'
  | (Raise e, s') => (Raise e, s')
  end.

Definition raise {S A} (e : exn) : M S A := λ s, (Raise e, s).

Definition get {S} : M S S := λ s, (Ok s, s).

Definition modify {S} (f : S → S) : M S () := λ s, (Ok (), f s).

(** [lift_result r] returns or raises as the outcome [r] of an outside call. *)
Definition lift_result {S A} (r : result A) : M S A := λ s, (r, s).

(** [try: m except Exception as e: h e], on the exceptions of [exn]. *)
Definition try_except {S A} (m : M S A) (h : exn → M S A) : M S A :=
  λ s, match m s with
       | (Ok a, s') => (Ok a, s')
       | (Raise e, s') => h e s'
       end.

(** A method of a component run inside the object that owns it. *)
Definition zoom {S T A} (proj : T → S) (upd : S → T → T) (m : M S A) : M T A :=
  λ t, match m (proj t) with (r, s') => (r, upd s' t) end.

(** The state a body leaves and the outcome it has. *)
Definition exec {S A} (m : M S A) (s : S) : S := (m s).2.
Definition outcome {S A} (m : M S A) (s : S) : result A := (m s).1.

(** ** The world outside the process *)

(** A PortAudio input stream, as [sounddevice] drives it: constructed
    (opened), started, stopped, closed. *)
Inductive StreamState := Opened | Active | Stopped | Closed.

Global Instance StreamState_eq_dec : EqDecision StreamState.
Proof. solve_decision. Defined.

(** A frame is one row of samples, one sample per channel; a block of
    frames is what the stream hands to the callback ([indata], of shape
    frames x channels) and what [np.array] builds from the buffer. *)
Definition int16 := Z.
Definition ndarray := list (list int16).

(** A file on disk: the bytes of a plain file, or a wave container with
    the parameters of its header and its data chunk. *)
Inductive File :=
| Bytes (data : list Z)
| Wave (nchannels sampwidth framerate : Z) (data : list Z).

Record OS := {
  portaudio : list StreamState;      (* every stream built so far, by handle *)
  files : gmap nat File;             (* the temporary directory, by file name *)
  clipboard : string;
  dialogs : list (string * string);  (* messagebox.showerror calls, oldest first *)
}.

Definition set_portaudio (p : list StreamState) (o : OS) : OS :=
  {| portaudio := p; files := files o; clipboard := clipboard o; dialogs := dialogs o |}.
Definition set_files (f : gmap nat File) (o : OS) : OS :=
  {| portaudio := portaudio o; files := f; clipboard := clipboard o; dialogs := dialogs o |}.
Definition set_clipboard (c : string) (o : OS) : OS :=
  {| portaudio := portaudio o; files := files o; clipboard := c; dialogs := dialogs o |}.
Definition set_dialogs (d : list (string * string)) (o : OS) : OS :=
  {| portaudio := portaudio o; files := files o; clipboard := clipboard o; dialogs := d |}.

(** One message of the chat request. *)
Record Message := { role : string; content : string }.

(** What the collaborators answer during one handler.  Opening the device
    and starting the stream may raise; the speech model reads the file it
    is pointed at; the chat endpoint sees the messages and the model name. *)
Record Oracle := {
  InputStream : option exn;          (* sd.InputStream(...) raises this *)
  start : option exn;                (* stream.start() raises this *)
  transcribe : File → result string; (* whisper_model.transcribe(path)['text'] *)
  create : list Message → string → result string;
                                     (* ...create(messages, model).choices[0].message.content *)
  time : Z;                          (* time.time(), in milliseconds *)
}.

(** ** AudioRecorder *)

Module AudioRecorder.

Record t := {
  audio_queue : list ndarray;
  recording : bool;
  audio_data : list (list int16);
  stream : option nat;    (* None: the attribute has not been assigned yet *)
}.

Definition set_recording (b : bool) (r : t) : t :=
  {| audio_queue := audio_queue r; recording := b;
     audio_data := audio_data r; stream := stream r |}.
Definition set_audio_data (d : list (list int16)) (r : t) : t :=
  {| audio_queue := audio_queue r; recording := recording r;
     audio_data := d; stream := stream r |}.
Definition set_stream (i : nat) (r : t) : t :=
  {| audio_queue := audio_queue r; recording := recording r;
     audio_data := audio_data r; stream := Some i |}.

Definition __init__ : t :=
  {| audio_queue := []; recording := false; audio_data := []; stream := None |}.

(** [callback(indata, frames, time, status)]: the body reads [indata]
    only; [extend] appends its rows, one per frame. *)
Definition callback (indata : ndarray) (r : t) : t :=
  if recording r then set_audio_data (audio_data r ++ indata) r else r.

(** The methods that touch the device run over the recorder and the
    stream table. *)
Definition St : Type := t * list StreamState.

Definition on_self (f : t → t) : M St () := modify (λ s, (f s.1, s.2)).
Definition on_streams (f : list StreamState → list StreamState) : M St () :=
  modify (λ s, (s.1, f s.2)).

(** [sd.InputStream(callback=..., channels=1, samplerate=16000,
    dtype='int16')]: a new handle, or the exception of the device. *)
Definition new_InputStream (o : Oracle) : M St nat :=
  match InputStream o with
  | Some e => raise e
  | None =>
      s ← get;
      on_streams (λ p, p ++ [Opened]);;
      mret (length s.2)
  end.

Definition stream_start (o : Oracle) (i : nat) : M St () :=
  match start o with
  | Some e => raise e
  | None => on_streams (λ p, <[i:=Active]> p)
  end.

(** [stop()] and [close()] are called with their default
    [ignore_errors=True]: they never raise.  Stopping acts on a running
    stream only. *)
Definition stream_stop (i : nat) : M St () :=
  on_streams (λ p, if decide (p !! i = Some Active) then <[i:=Stopped]> p else p).

Definition stream_close (i : nat) : M St () :=
  on_streams (λ p, <[i:=Closed]> p).

(** [self.stream]: AttributeError while the attribute is not there. *)
Definition self_stream : M St nat :=
  s ← get;
  match stream s.1 with
  | Some i => mret i
  | None => raise (Exn "AttributeError"
                       "'AudioRecorder' object has no attribute 'stream'")
  end.

Definition np_array (l : list (list int16)) : ndarray := l.

Definition start_recording (o : Oracle) : M St () :=
  on_self (set_recording true);;
  on_self (set_audio_data []);;
  i ← new_InputStream o;
  on_self (set_stream i);;
  i ← self_stream;
  stream_start o i.

Definition stop_recording : M St ndarray :=
  on_self (set_recording false);;
  i ← self_stream;
  stream_stop i;;
  i ← self_stream;
  stream_close i;;
  s ← get;
  mret (np_array (audio_data s.1)).

(** The audio thread delivering a block. *)
Definition deliver (indata : ndarray) (s : St) : St := (callback indata s.1, s.2).

End AudioRecorder.

(** ** The formatter *)

(** [s.startswith(p)] *)
Fixpoint startswith (s p : string) {struct p} : bool :=
  match p, s with
  | EmptyString, _ => true
  | String _ _, EmptyString => false
  | String c p', String d s' => Ascii.eqb c d && startswith s' p'
  end.

(** [s[n:]] *)
Fixpoint slice_from (n : nat) (s : string) : string :=
  match n, s with
  | O, _ => s
  | S _, EmptyString => EmptyString
  | S n', String _ s' => slice_from n' s'
  end.

Definition dq : string := String (ascii_of_nat 34) EmptyString.

Definition system_prompt : string :=
"
You are a helpful assistant designed to convert spoken equations into LaTeX code. 
When a user speaks a mathematical equation, transcribe it into a clean text form, 
then convert the text into a valid LaTeX equation. 
You shall only answer " +:+ dq +:+ "LaTeX code: whatever code here" +:+ dq +:+ ", don't reply anything else or
any explanations.

For example:
If the user says " +:+ dq +:+ "A is equal to tan inverse x" +:+ dq +:+ ", your task is to:
1. Transcribe the equation into a clean format: " +:+ dq +:+ "A = tan^{-1}(x)" +:+ dq +:+ "
2. Convert the transcribed equation into LaTeX code: " +:+ dq +:+ "A = \tan^{-1}(x)" +:+ dq +:+ "
3. Provide this LaTeX code as output.

Give the correct equations. Don't make mistakes like adding elements after carbon like hydrogen in glucose to subscript for example in chemical equations.

The LaTeX code should be formatted in the standard Latex form.
".

(** The marker the model is told to put in front of its answer. *)
Definition marker : string := "LaTeX code: ".

(** The request [text_to_latex] builds for a transcript. *)
Definition conversation (text : string) : list Message :=
  [ {| role := "system"; content := system_prompt |};
    {| role := "user"; content := text |} ].

Definition text_to_latex (o : Oracle) (text : string) : result string :=
  match create o (conversation text) "llama3-70b-8192" with
  | Raise e => Raise e
  | Ok latex_code =>
      Ok (if startswith latex_code marker
          then slice_from (String.length marker) latex_code
          else latex_code)
  end.

(** ** The temporary wave file *)

(** [a.tobytes()] of an int16 array: two bytes a sample, low byte first. *)
Definition int16_bytes (x : int16) : list Z :=
  [Z.land x 255; Z.land (Z.shiftr x 8) 255].

Definition tobytes (a : ndarray) : list Z :=
  flat_map (flat_map int16_bytes) a.

(** [tempfile.NamedTemporaryFile(suffix=".wav", delete=False)]: a new,
    empty file under a name no file has.  Creating and writing the file are
    taken to succeed; the failures followed here are those of the device
    and of the two services. *)
Definition NamedTemporaryFile (fs : gmap nat File) : nat * gmap nat File :=
  let name := fresh (dom fs) in (name, <[name := Bytes []]> fs).

(** [os.unlink(name)] *)
Definition unlink (name : nat) (fs : gmap nat File) : result (gmap nat File) :=
  match fs !! name with
  | Some _ => Ok (delete name fs)
  | None => Raise (Exn "FileNotFoundError" "No such file or directory")
  end.

(** ** MainApplication *)

Inductive Bootstyle := SUCCESS | DANGER | INFO.

Module MainApplication.

Record t := {
  recorder : AudioRecorder.t;
  recording : bool;
  start_time : option Z;
  transcribed_text : string;
  latex_code : string;
  (* the widgets the handlers write to *)
  record_btn : string * Bootstyle;
  status_var : string;
  trans_text : string;
  latex_text : string;
}.

Definition set_recorder (x : AudioRecorder.t) (a : t) : t :=
  {| recorder := x; recording := recording a; start_time := start_time a;
     transcribed_text := transcribed_text a; latex_code := latex_code a;
     record_btn := record_btn a; status_var := status_var a;
     trans_text := trans_text a; latex_text := latex_text a |}.
Definition set_recording (x : bool) (a : t) : t :=
  {| recorder := recorder a; recording := x; start_time := start_time a;
     transcribed_text := transcribed_text a; latex_code := latex_code a;
     record_btn := record_btn a; status_var := status_var a;
     trans_text := trans_text a; latex_text := latex_text a |}.
Definition set_start_time (x : Z) (a : t) : t :=
  {| recorder := recorder a; recording := recording a; start_time := Some x;
     transcribed_text := transcribed_text a; latex_code := latex_code a;
     record_btn := record_btn a; status_var := status_var a;
     trans_text := trans_text a; latex_text := latex_text a |}.
Definition set_transcribed_text (x : string) (a : t) : t :=
  {| recorder := recorder a; recording := recording a; start_time := start_time a;
     transcribed_text := x; latex_code := latex_code a;
     record_btn := record_btn a; status_var := status_var a;
     trans_text := trans_text a; latex_text := latex_text a |}.
Definition set_latex_code (x : string) (a : t) : t :=
  {| recorder := recorder a; recording := recording a; start_time := start_time a;
     transcribed_text := transcribed_text a; latex_code := x;
     record_btn := record_btn a; status_var := status_var a;
     trans_text := trans_text a; latex_text := latex_text a |}.
Definition set_record_btn (x : string * Bootstyle) (a : t) : t :=
  {| recorder := recorder a; recording := recording a; start_time := start_time a;
     transcribed_text := transcribed_text a; latex_code := latex_code a;
     record_btn := x; status_var := status_var a;
     trans_text := trans_text a; latex_text := latex_text a |}.
Definition set_status_var (x : string) (a : t) : t :=
  {| recorder := recorder a; recording := recording a; start_time := start_time a;
     transcribed_text := transcribed_text a; latex_code := latex_code a;
     record_btn := record_btn a; status_var := x;
     trans_text := trans_text a; latex_text := latex_text a |}.
Definition set_trans_text (x : string) (a : t) : t :=
  {| recorder := recorder a; recording := recording a; start_time := start_time a;
     transcribed_text := transcribed_text a; latex_code := latex_code a;
     record_btn := record_btn a; status_var := status_var a;
     trans_text := x; latex_text := latex_text a |}.
Definition set_latex_text (x : string) (a : t) : t :=
  {| recorder := recorder a; recording := recording a; start_time := start_time a;
     transcribed_text := transcribed_text a; latex_code := latex_code a;
     record_btn := record_btn a; status_var := status_var a;
     trans_text := trans_text a; latex_text := x |}.

Definition __init__ : t :=
  {| recorder := AudioRecorder.__init__;
     recording := false;
     start_time := None;
     transcribed_text := EmptyString;
     latex_code := EmptyString;
     record_btn := ("Start Recording", SUCCESS);
     status_var := EmptyString;
     trans_text := EmptyString;
     latex_text := EmptyString |}.

(** The handlers run over the application object and the world. *)
Definition St : Type := t * OS.

Definition on_self (f : t → t) : M St () := modify (λ s, (f s.1, s.2)).
Definition on_os (f : OS → OS) : M St () := modify (λ s, (s.1, f s.2)).

(** A method of [self.recorder]. *)
Definition on_recorder {A} (m : M AudioRecorder.St A) : M St A :=
  zoom (λ s : St, (recorder s.1, portaudio s.2))
       (λ r s, (set_recorder r.1 s.1, set_portaudio r.2 s.2)) m.

(** [messagebox.showerror(title, message)] *)
Definition showerror (title message : string) : M St () :=
  on_os (λ w, set_dialogs (dialogs w ++ [(title, message)]) w).

(** [pyperclip.copy(text)], with a clipboard that is there: the copy is
    taken to succeed. *)
Definition pyperclip_copy (text : string) : M St () :=
  on_os (set_clipboard text).

Definition start_recording (o : Oracle) : M St () :=
  try_except
    (on_recorder (AudioRecorder.start_recording o);;
     on_self (set_recording true);;
     on_self (set_start_time (time o));;
     on_self (set_record_btn ("Stop Recording", DANGER));;
     on_self (set_status_var "Recording..."))
    (λ e, showerror "Error" ("Failed to start recording: " +:+ exn_str e)).

(** The first four statements of [stop_recording]: the recorder is
    disarmed and the window shows that the audio is being processed. *)
Definition begin_processing : M St ndarray :=
  audio_data ← on_recorder AudioRecorder.stop_recording;
  on_self (set_recording false);;
  on_self (set_record_btn ("Start Recording", SUCCESS));;
  on_self (set_status_var "Processing audio...");;
  mret audio_data.

(** The rest of the [try] block: the wave file, the two services, the
    display, and the removal of the file. *)
Definition process (o : Oracle) (audio_data : ndarray) : M St () :=
  s ← get;
  let (tmpfile, fs) := NamedTemporaryFile (files s.2) in
  on_os (set_files fs);;
  on_os (λ w, set_files (<[tmpfile := Wave 1 2 16000 (tobytes audio_data)]> (files w)) w);;
  s ← get;
  text ← lift_result
           (match files s.2 !! tmpfile with
            | Some f => transcribe o f
            | None => Raise (Exn "FileNotFoundError" "No such file or directory")
            end);
  on_self (set_transcribed_text text);;
  s ← get;
  latex ← lift_result (text_to_latex o (transcribed_text s.1));
  on_self (set_latex_code latex);;
  s ← get;
  on_self (set_trans_text (transcribed_text s.1));;
  on_self (set_latex_text (latex_code s.1));;
  on_self (set_status_var "Ready");;
  s ← get;
  fs' ← lift_result (unlink tmpfile (files s.2));
  on_os (set_files fs').

Definition stop_recording (o : Oracle) : M St () :=
  try_except
    (audio_data ← begin_processing; process o audio_data)
    (λ e, showerror "Error" ("Processing failed: " +:+ exn_str e);;
          on_self (set_status_var "Error occurred")).

Definition toggle_recording (o : Oracle) : M St () :=
  s ← get;
  if negb (recording s.1) then start_recording o else stop_recording o.

Definition copy_text : M St () :=
  s ← get;
  pyperclip_copy (transcribed_text s.1);;
  on_self (set_status_var "Text copied to clipboard!").

Definition copy_latex : M St () :=
  s ← get;
  pyperclip_copy (latex_code s.1);;
  on_self (set_status_var "LaTeX copied to clipboard!").

(** [update_ui], without the timer it re-arms.  The clock is read in whole
    milliseconds and [int] drops the fraction of a second; the rounding of
    the floating-point difference of the source is not followed, so the
    number shown can differ by one from the program's. *)
Definition update_ui (o : Oracle) : M St () :=
  s ← get;
  if recording s.1 then
    match start_time s.1 with
    | Some t0 =>
        let duration := Z.quot (time o - t0) 1000 in
        on_self (set_status_var
                   ("Recording... " +:+ NilZero.string_of_int (Z.to_int duration)
                    +:+ " seconds"))
    | None => raise (Exn "TypeError" "unsupported operand type(s) for -: 'float' and 'NoneType'")
    end
  else mret ().

End MainApplication.

(** ** The event loop *)

(** What can happen to a running application: the record button or the
    space bar, the two copy bindings, the timer, and the audio thread
    delivering a block of frames. *)
Inductive Event :=
| toggle
| copy_text
| copy_latex
| tick
| audio (indata : ndarray).

Definition World : Type := MainApplication.St.

(** One handler run to its end; Tk reports an exception that leaves a
    handler and goes on.  A block from the audio thread is taken between
    two handlers: the callback is one [extend] under the interpreter lock,
    and the handlers that change the recorder's flag are not interleaved
    with it here. *)
Definition step (w : World) (ev : Oracle * Event) : World :=
  match ev.2 with
  | toggle => exec (MainApplication.toggle_recording ev.1) w
  | copy_text => exec MainApplication.copy_text w
  | copy_latex => exec MainApplication.copy_latex w
  | tick => exec (MainApplication.update_ui ev.1) w
  | audio indata =>
      (MainApplication.set_recorder
         (AudioRecorder.callback indata (MainApplication.recorder w.1)) w.1, w.2)
  end.

Definition run (evs : list (Oracle * Event)) (w : World) : World :=
  foldl step w evs.

(** The application as [MainApplication()] leaves it: no stream built yet,
    no dialog shown, whatever the temporary directory and the clipboard
    hold. *)
Definition boot (fs : gmap nat File) (clip : string) : World :=
  (MainApplication.__init__,
   {| portaudio := []; files := fs; clipboard := clip; dialogs := [] |}).

Inductive reachable : World → Prop :=
| reachable_boot fs clip : reachable (boot fs clip)
| reachable_step w ev : reachable w → reachable (step w ev).

(** ** The main loop *)

(** [app.mainloop()] on the one thread of the window: events wait in a
    queue; when no handler runs the loop takes the first and runs its
    handler to the end.  A key, a click or a timer event that arrives while
    a handler runs waits in the queue until the handler has returned.  The
    modal loop that [messagebox.showerror] runs inside a handler while its
    box is shown is not followed. *)
Record Loop := {
  world : World;
  running : option (Oracle * Event);   (* the event whose handler is running *)
  queue : list (Oracle * Event);
}.

Inductive Tk :=
| arrive (ev : Oracle * Event)   (* the user or the timer issues an event *)
| enter                          (* the loop takes the next event *)
| leave.                         (* the running handler returns *)

Definition tk_step (l : Loop) (a : Tk) : Loop :=
  match a with
  | arrive ev =>
      {| world := world l; running := running l; queue := queue l ++ [ev] |}
  | enter =>
      match running l, queue l with
      | None, ev :: q => {| world := world l; running := Some ev; queue := q |}
      | _, _ => l
      end
  | leave =>
      match running l with
      | Some ev => {| world := step (world l) ev; running := None; queue := queue l |}
      | None => l
      end
  end.

Definition tk_run (acts : list Tk) (l : Loop) : Loop := foldl tk_step l acts.

(** The loop as [mainloop] starts it. *)
Definition tk_boot (fs : gmap nat File) (clip : string) : Loop :=
  {| world := boot fs clip; running := None; queue := [] |}.

(** The controller is processing: the handler that runs is the one of a
    toggle that found a recording to stop. *)
Definition processing_now (l : Loop) : bool :=
  match running l with
  | Some (_, toggle) => MainApplication.recording (world l).1
  | _ => false
  end.

(** ** Recording sessions on the recorder alone *)

(** One session: blocks that arrive while the recorder is not armed, then
    arm, the blocks delivered while armed, then disarm. *)
Record Session := {
  device : Oracle;
  idle_blocks : list ndarray;
  armed_blocks : list ndarray;
}.

Definition deliver_all (blocks : list ndarray) (s : AudioRecorder.St) : AudioRecorder.St :=
  foldl (λ s b, AudioRecorder.deliver b s) s blocks.

Definition run_session (x : Session) (s : AudioRecorder.St)
  : result ndarray * AudioRecorder.St :=
  let s0 := deliver_all (idle_blocks x) s in
  let s1 := exec (AudioRecorder.start_recording (device x)) s0 in
  let s2 := deliver_all (armed_blocks x) s1 in
  AudioRecorder.stop_recording s2.

Fixpoint run_sessions (xs : list Session) (s : AudioRecorder.St)
  : list (result ndarray) :=
  match xs with
  | [] => []
  | x :: xs' => let (r, s') := run_session x s in r :: run_sessions xs' s'
  end.

(** The number of frames in a list of delivered blocks. *)
Definition frames_delivered (blocks : list ndarray) : nat :=
  sum_list (length <$> blocks).

Definition device_opens (o : Oracle) : Prop :=
  InputStream o = None ∧ start o = None.

(** ** Vocabulary of the statements *)

Section Vocabulary.
Import MainApplication.

(** The wave file [stop_recording] writes for a buffer, and the name the
    temporary file gets. *)
Definition wave_of (audio_data : ndarray) : File :=
  Wave 1 2 16000 (tobytes audio_data).

Definition tmp_name (w : OS) : nat := fresh (dom (files w)).
Global Arguments tmp_name : simpl never.

(** What the [except] branch of [start_recording] leaves. *)
Definition start_failed (e : exn) (r : AudioRecorder.t) (p : list StreamState)
           (s : St) : St :=
  (set_recorder r s.1,
   set_dialogs (dialogs s.2 ++ [("Error"%string,
                                 "Failed to start recording: " +:+ exn_str e)])
               (set_portaudio p s.2)).

(** The state in which the audio is being processed. *)
Definition processing (s : St) (i : nat) : St :=
  (set_status_var "Processing audio..."
     (set_record_btn ("Start Recording"%string, SUCCESS)
        (set_recording false
           (set_recorder (AudioRecorder.set_recording false (recorder s.1)) s.1))),
   set_portaudio
     (<[i := Closed]> (if decide (portaudio s.2 !! i = Some Active)
                       then <[i := Stopped]> (portaudio s.2) else portaudio s.2))
     s.2).

(** What the [except] branch of [stop_recording] leaves. *)
Definition processing_failed (e : exn) (s : St) : St :=
  (set_status_var "Error occurred" s.1,
   set_dialogs (dialogs s.2 ++ [("Error"%string,
                                 "Processing failed: " +:+ exn_str e)]) s.2).

End Vocabulary.

(** The wave file a stop request would write in this state. *)
Definition wave_heard (w : World) : File :=
  wave_of (AudioRecorder.audio_data (MainApplication.recorder w.1)).

(** The event stops a recording and the speech model returns a transcript. *)
Definition transcribes (w : World) (ev : Oracle * Event) : bool :=
  match ev.2 with
  | toggle =>
      MainApplication.recording w.1
      && match transcribe ev.1 (wave_heard w) with Ok _ => true | Raise _ => false end
  | _ => false
  end.

(** The event stops a recording and both services return: the session
    completes successfully. *)
Definition completes (w : World) (ev : Oracle * Event) : bool :=
  match ev.2 with
  | toggle =>
      MainApplication.recording w.1
      && match transcribe ev.1 (wave_heard w) with
         | Ok text =>
             match text_to_latex ev.1 text with Ok _ => true | Raise _ => false end
         | Raise _ => false
         end
  | _ => false
  end.

(** No event of the run satisfies [P] in the state it arrives in. *)
Fixpoint never (P : World → Oracle * Event → bool)
         (evs : list (Oracle * Event)) (w : World) : bool :=
  match evs with
  | [] => true
  | ev :: evs' => negb (P w ev) && never P evs' (step w ev)
  end.

(** The streams that are running, that is the sessions that are open. *)
Definition active_streams (p : list StreamState) : nat :=
  length (filter (λ x, x = Active) p).

Definition open_sessions (w : World) : nat := active_streams (portaudio w.2).

Definition is_active (x : StreamState) : nat :=
  if decide (x = Active) then 1%nat else 0%nat.

(** The invariant of the running application. *)
Definition consistent (w : World) : Prop :=
  active_streams (portaudio w.2)
  = (if MainApplication.recording w.1 then 1%nat else 0%nat)
  ∧ (MainApplication.recording w.1 = true →
     ∃ i, AudioRecorder.stream (MainApplication.recorder w.1) = Some i
          ∧ portaudio w.2 !! i = Some Active).

(** Two application objects that differ in the status text at most. *)
Definition same_but_status (a b : MainApplication.t) : Prop :=
  MainApplication.recorder a = MainApplication.recorder b
  ∧ MainApplication.recording a = MainApplication.recording b
  ∧ MainApplication.start_time a = MainApplication.start_time b
  ∧ MainApplication.transcribed_text a = MainApplication.transcribed_text b
  ∧ MainApplication.latex_code a = MainApplication.latex_code b
  ∧ MainApplication.record_btn a = MainApplication.record_btn b
  ∧ MainApplication.trans_text a = MainApplication.trans_text b
  ∧ MainApplication.latex_text a = MainApplication.latex_text b.

(** ** Vocabulary of the further properties *)

Definition is_toggle (ev : Oracle * Event) : bool :=
  match ev.2 with toggle => true | _ => false end.

Definition is_copy (ev : Oracle * Event) : bool :=
  match ev.2 with copy_text | copy_latex => true | _ => false end.

(** The frames the audio thread delivers during a run, in order. *)
Definition frames_heard (evs : list (Oracle * Event)) : ndarray :=
  flat_map (λ ev, match ev.2 with audio indata => indata | _ => [] end) evs.

(** The number of toggles in a run. *)
Definition toggles (evs : list (Oracle * Event)) : nat :=
  length (filter (λ ev, is_toggle ev = true) evs).

(** What only a toggle changes: the controller's flag and start time, the
    stored and the displayed results, the button, the recorder's flag and
    stream, the stream table, the temporary directory and the dialogs. *)
Definition toggle_owned (w : World) :=
  (MainApplication.recording w.1, MainApplication.start_time w.1,
   MainApplication.transcribed_text w.1, MainApplication.latex_code w.1,
   MainApplication.record_btn w.1,
   MainApplication.trans_text w.1, MainApplication.latex_text w.1,
   AudioRecorder.recording (MainApplication.recorder w.1),
   AudioRecorder.stream (MainApplication.recorder w.1),
   portaudio w.2, files w.2, dialogs w.2).

(** The button as [start_recording] and [stop_recording] configure it. *)
Definition shown_button (recording : bool) : string * Bootstyle :=
  if recording then ("Stop Recording"%string, DANGER)
  else ("Start Recording"%string, SUCCESS).

(** The window agrees with the controller, and the controller with the
    recorder. *)
Definition ui_consistent (w : World) : Prop :=
  MainApplication.record_btn w.1 = shown_button (MainApplication.recording w.1)
  ∧ (MainApplication.recording w.1 = true →
     is_Some (MainApplication.start_time w.1)
     ∧ AudioRecorder.recording (MainApplication.recorder w.1) = true)
  ∧ MainApplication.latex_text w.1 = MainApplication.latex_code w.1.

(** ** Concrete collaborators, for the scenarios *)

(** The device opens, the speech model hears the example sentence and the
    chat model answers as instructed. *)
Definition happy : Oracle :=
  {| InputStream := None;
     start := None;
     transcribe := λ _, Ok "A equals tan inverse x"%string;
     create := λ _ _, Ok "LaTeX code: A = \tan^{-1}(x)"%string;
     time := 0 |}.

(** No input device. *)
Definition no_device : Oracle :=
  {| InputStream := Some (Exn "PortAudioError" "Error querying device -1");
     start := None;
     transcribe := transcribe happy;
     create := create happy;
     time := 0 |}.

(** The speech model fails. *)
Definition deaf : Oracle :=
  {| InputStream := None;
     start := None;
     transcribe := λ _, Raise (Exn "RuntimeError" "Failed to load audio");
     create := create happy;
     time := 0 |}.

(** The speech model answers, the chat endpoint does not. *)
Definition offline : Oracle :=
  {| InputStream := None;
     start := None;
     transcribe := λ _, Ok "x squared"%string;
     create := λ _ _, Raise (Exn "APIConnectionError" "Connection error.");
     time := 0 |}.

(** The application after one toggle: a recording is running. *)
Definition recording_world : World := step (boot ∅ EmptyString) (happy, toggle).

(** The recording of three frames that the scenarios stop. *)
Definition three_frames : World := step recording_world (happy, audio [[1]; [2]; [-3]]).

(** * Properties *)

Ltac run_body :=
  unfold exec, outcome, try_except, zoom, lift_result, raise, get, modify,
         mbind, M_bind, mret, M_ret; simpl.

(** ** Strings *)

Lemma startswith_app (p r : string) : startswith (p +:+ r) p = true.
Proof.
  induction p as [|c p IH]; simpl.
  - done.
  - by rewrite Ascii.eqb_refl, IH.
Qed.

Lemma slice_from_app (p r : string) : slice_from (String.length p) (p +:+ r) = r.
Proof. induction p as [|c p IH]; simpl; [by destruct r | exact IH]. Qed.

Lemma startswith_inv (s p : string) :
  startswith s p = true → ∃ r, s = p +:+ r.
Proof.
  revert s. induction p as [|c p IH]; intros s H; simpl in *.
  - by exists s.
  - destruct s as [|d s]; [done|].
    apply andb_prop in H as [Hc Hs]. apply Ascii.eqb_eq in Hc as ->.
    destruct (IH _ Hs) as [r ->]. by exists r.
Qed.

Lemma startswith_false (s p : string) :
  startswith s p = false ↔ ∀ r, s ≠ p +:+ r.
Proof.
  split.
  - intros H r ->. by rewrite startswith_app in H.
  - intros H. destruct (startswith s p) eqn:E; [|done].
    destruct (startswith_inv _ _ E) as [r ->]. by destruct (H r).
Qed.

(** ** The recorder *)

Section Recorder.
Import AudioRecorder.

Lemma start_recording_opens (o : Oracle) (r : t) (p : list StreamState) :
  device_opens o →
  start_recording o (r, p)
  = (Ok (), ({| audio_queue := audio_queue r; recording := true;
                audio_data := []; stream := Some (length p) |},
             <[length p := Active]> (p ++ [Opened]))).
Proof.
  intros [Ho Hs]. unfold start_recording, new_InputStream, stream_start,
    self_stream, on_self, on_streams.
  rewrite Ho, Hs. by run_body.
Qed.

Lemma stop_recording_stream (r : t) (p : list StreamState) (i : nat) :
  stream r = Some i →
  stop_recording (r, p)
  = (Ok (audio_data r),
     (set_recording false r,
      <[i := Closed]> (if decide (p !! i = Some Active)
                       then <[i := Stopped]> p else p))).
Proof.
  intros Hi. destruct r as [q b d st]; simpl in Hi; subst st.
  unfold stop_recording, self_stream, stream_stop, stream_close,
    on_self, on_streams. by run_body.
Qed.

Lemma stop_recording_no_stream (r : t) (p : list StreamState) :
  stream r = None →
  stop_recording (r, p)
  = (Raise (Exn "AttributeError"
                "'AudioRecorder' object has no attribute 'stream'"),
     (set_recording false r, p)).
Proof.
  intros Hi. destruct r as [q b d st]; simpl in Hi; subst st.
  unfold stop_recording, self_stream, on_self. by run_body.
Qed.

Lemma deliver_all_cons (b : ndarray) (bs : list ndarray) (s : St) :
  deliver_all (b :: bs) s = deliver_all bs (deliver b s).
Proof. done. Qed.

Lemma deliver_all_armed (blocks : list ndarray) (r : t) (p : list StreamState) :
  recording r = true →
  deliver_all blocks (r, p) = (set_audio_data (audio_data r ++ concat blocks) r, p).
Proof.
  revert r. induction blocks as [|b bs IH]; intros r Hr.
  - simpl. rewrite app_nil_r. by destruct r.
  - rewrite deliver_all_cons. unfold deliver, callback. simpl. rewrite Hr.
    rewrite IH by done. simpl. by rewrite <- app_assoc.
Qed.

Lemma deliver_all_disarmed (blocks : list ndarray) (r : t) (p : list StreamState) :
  recording r = false → deliver_all blocks (r, p) = (r, p).
Proof.
  intros Hr. induction blocks as [|b bs IH].
  - done.
  - rewrite deliver_all_cons. unfold deliver, callback. simpl. by rewrite Hr.
Qed.

Lemma deliver_all_streams (blocks : list ndarray) (s : St) :
  (deliver_all blocks s).2 = s.2.
Proof. revert s. induction blocks as [|b bs IH]; intros s; simpl; [done|]. by rewrite IH. Qed.

Lemma length_concat_blocks (blocks : list ndarray) :
  length (concat blocks) = frames_delivered blocks.
Proof.
  unfold frames_delivered. induction blocks as [|b bs IH]; simpl.
  - done.
  - rewrite length_app. by rewrite IH.
Qed.

Lemma run_session_buffer (x : Session) (s : St) :
  device_opens (device x) →
  ∃ s', run_session x s = (Ok (concat (armed_blocks x)), s')
        ∧ recording s'.1 = false.
Proof.
  intros Ho. unfold run_session.
  destruct (deliver_all (idle_blocks x) s) as [r0 p0].
  unfold exec. rewrite start_recording_opens by done. simpl.
  rewrite deliver_all_armed by done. simpl.
  erewrite stop_recording_stream by done. simpl. eauto.
Qed.

End Recorder.

(** ** C1: the returned buffer *)

(** C1. For every sequence of sessions on the recorder (blocks arriving
    while it is not armed, arm, blocks delivered while armed, disarm) whose
    device opens, each disarm returns exactly the frames delivered while
    armed in that session, in order: its length is their number, none is
    lost or duplicated.  In particular a session in which 16000 frames are
    delivered returns a buffer of length 16000. *)
Theorem disarm_returns_delivered_frames (xs : list Session) (s : AudioRecorder.St) :
  Forall (λ x, device_opens (device x)) xs →
  run_sessions xs s = (λ x, Ok (concat (armed_blocks x))) <$> xs
  ∧ Forall2 (λ x r, ∃ buf, r = Ok buf
                           ∧ length buf = frames_delivered (armed_blocks x))
            xs (run_sessions xs s)
  ∧ Forall2 (λ x r, Z.of_nat (frames_delivered (armed_blocks x)) = 16000 →
                    ∃ buf, r = Ok buf ∧ Z.of_nat (length buf) = 16000)
            xs (run_sessions xs s).
Proof.
  intros Hxs.
  assert (Hrun : run_sessions xs s = (λ x, Ok (concat (armed_blocks x))) <$> xs).
  { revert s. induction Hxs as [|x xs Hx _ IH]; intros s; simpl; [done|].
    destruct (run_session_buffer x s Hx) as (s' & -> & _). by rewrite IH. }
  rewrite Hrun. split; [done|]. clear Hrun Hxs s.
  split; induction xs as [|x xs IH]; simpl; constructor; try done.
  - eexists. split; [done|]. apply length_concat_blocks.
  - intros H. eexists. split; [done|]. by rewrite length_concat_blocks.
Qed.

Lemma disarm_returns_delivered_frames_witness :
  let xs := [ {| device := happy; idle_blocks := [[[9]]];
                 armed_blocks := [[[1]; [2]]; []; [[-3]]] |};
              {| device := happy; idle_blocks := [[[8]; [8]]];
                 armed_blocks := [[[4]]; [[5]]] |} ] in
  Forall (λ x, device_opens (device x)) xs
  ∧ run_sessions xs (AudioRecorder.__init__, [])
    = [Ok [[1]; [2]; [-3]]; Ok [[4]; [5]]].
Proof.
  intros xs.
  assert (H : Forall (λ x, device_opens (device x)) xs)
    by (repeat constructor).
  split; [exact H|].
  exact (proj1 (disarm_returns_delivered_frames xs _ H)).
Defined.

(** ** C2: the formatter *)

(** C2. Whatever string the completion call returns, [text_to_latex]
    returns what follows one leading marker when the string starts with the
    marker, and the string itself otherwise.  A second marker is kept; the
    two examples and the scenario of the specification come out as stated. *)
Theorem text_to_latex_strips_marker (o : Oracle) (text response : string) :
  create o (conversation text) "llama3-70b-8192" = Ok response →
  (∀ rest, response = marker +:+ rest → text_to_latex o text = Ok rest)
  ∧ ((∀ rest, response ≠ marker +:+ rest) → text_to_latex o text = Ok response)
  ∧ (∀ rest, response = marker +:+ marker +:+ rest →
             text_to_latex o text = Ok (marker +:+ rest))
  ∧ (response = "LaTeX code: x^2"%string → text_to_latex o text = Ok "x^2"%string)
  ∧ (response = "x^2"%string → text_to_latex o text = Ok "x^2"%string)
  ∧ (response = "LaTeX code: A = \tan^{-1}(x)"%string →
     text_to_latex o text = Ok "A = \tan^{-1}(x)"%string).
Proof.
  intros Hr. unfold text_to_latex. rewrite Hr.
  assert (Hstrip : ∀ rest, response = marker +:+ rest →
            Ok (if startswith response marker
                then slice_from (String.length marker) response
                else response) = Ok rest).
  { intros rest ->. by rewrite startswith_app, slice_from_app. }
  repeat split.
  - exact Hstrip.
  - intros Hno. apply startswith_false in Hno. by rewrite Hno.
  - intros rest. apply Hstrip.
  - by intros ->.
  - by intros ->.
  - by intros ->.
Qed.

Lemma text_to_latex_strips_marker_witness :
  create happy (conversation "A equals tan inverse x") "llama3-70b-8192"
  = Ok "LaTeX code: A = \tan^{-1}(x)"%string
  ∧ text_to_latex happy "A equals tan inverse x" = Ok "A = \tan^{-1}(x)"%string.
Proof.
  split; [reflexivity|].
  apply (text_to_latex_strips_marker happy "A equals tan inverse x"
           "LaTeX code: A = \tan^{-1}(x)" eq_refl).
  reflexivity.
Defined.

(** ** The controller's handlers, case by case *)

Section Starting.
Import MainApplication.

Lemma recorder_start_fails_open (o : Oracle) (e : exn)
      (r : AudioRecorder.t) (p : list StreamState) :
  InputStream o = Some e →
  AudioRecorder.start_recording o (r, p)
  = (Raise e, (AudioRecorder.set_audio_data [] (AudioRecorder.set_recording true r), p)).
Proof.
  intros Ho. unfold AudioRecorder.start_recording, AudioRecorder.new_InputStream,
    AudioRecorder.on_self. rewrite Ho. by run_body.
Qed.

Lemma recorder_start_fails_start (o : Oracle) (e : exn)
      (r : AudioRecorder.t) (p : list StreamState) :
  InputStream o = None → start o = Some e →
  AudioRecorder.start_recording o (r, p)
  = (Raise e,
     (AudioRecorder.set_stream (length p)
        (AudioRecorder.set_audio_data [] (AudioRecorder.set_recording true r)),
      p ++ [Opened])).
Proof.
  intros Ho Hs. unfold AudioRecorder.start_recording, AudioRecorder.new_InputStream,
    AudioRecorder.stream_start, AudioRecorder.self_stream,
    AudioRecorder.on_self, AudioRecorder.on_streams.
  rewrite Ho, Hs. by run_body.
Qed.

Lemma start_recording_ok (o : Oracle) (s : St) :
  device_opens o →
  start_recording o s
  = (Ok (),
     (set_status_var "Recording..."
        (set_record_btn ("Stop Recording"%string, DANGER)
           (set_start_time (time o)
              (set_recording true
                 (set_recorder
                    {| AudioRecorder.audio_queue := AudioRecorder.audio_queue (recorder s.1);
                       AudioRecorder.recording := true;
                       AudioRecorder.audio_data := [];
                       AudioRecorder.stream := Some (length (portaudio s.2)) |}
                    s.1)))),
      set_portaudio (<[length (portaudio s.2) := Active]> (portaudio s.2 ++ [Opened]))
                    s.2)).
Proof.
  intros Ho. unfold start_recording, on_recorder, on_self, try_except, zoom,
    mbind, M_bind.
  by rewrite start_recording_opens.
Qed.

Lemma start_recording_raises (o : Oracle) (s : St) (e : exn)
      (r : AudioRecorder.t) (p : list StreamState) :
  AudioRecorder.start_recording o (recorder s.1, portaudio s.2) = (Raise e, (r, p)) →
  start_recording o s = (Ok (), start_failed e r p s).
Proof.
  intros Hr. unfold start_recording, on_recorder, on_self, try_except, zoom,
    mbind, M_bind.
  by rewrite Hr.
Qed.

End Starting.

Section Stopping.
Import MainApplication.

Lemma process_cases (o : Oracle) (audio_data : ndarray) (s : St) :
  process o audio_data s
  = let kept := set_files (<[tmp_name s.2 := wave_of audio_data]> (files s.2)) s.2 in
    match transcribe o (wave_of audio_data) with
    | Raise e => (Raise e, (s.1, kept))
    | Ok text =>
        match text_to_latex o text with
        | Raise e => (Raise e, (set_transcribed_text text s.1, kept))
        | Ok latex =>
            (Ok (),
             (set_status_var "Ready"
                (set_latex_text latex
                   (set_trans_text text
                      (set_latex_code latex (set_transcribed_text text s.1)))),
              set_files (files s.2) s.2))
        end
    end.
Proof.
  destruct s as [a w]. unfold process, NamedTemporaryFile, tmp_name, wave_of.
  unfold on_os, on_self, lift_result, get, modify, mbind, M_bind.
  cbn [fst snd files set_files]. unfold unlink.
  rewrite !lookup_insert_eq, !delete_insert_eq.
  rewrite (delete_id (files w)) by apply not_elem_of_dom_1, is_fresh.
  rewrite insert_insert_eq.
  destruct (transcribe o _) as [text|e]; [|done].
  cbn [transcribed_text set_transcribed_text].
  by destruct (text_to_latex o text) as [latex|e].
Qed.

Lemma begin_processing_stream (s : St) (i : nat) :
  AudioRecorder.stream (recorder s.1) = Some i →
  begin_processing s
  = (Ok (AudioRecorder.audio_data (recorder s.1)), processing s i).
Proof.
  intros Hi. unfold begin_processing, on_recorder, on_self, zoom, mbind, M_bind.
  by erewrite stop_recording_stream.
Qed.

Lemma stop_recording_cases (o : Oracle) (s : St) (i : nat) :
  AudioRecorder.stream (recorder s.1) = Some i →
  stop_recording o s
  = let audio_data := AudioRecorder.audio_data (recorder s.1) in
    let p := processing s i in
    let kept := set_files (<[tmp_name p.2 := wave_of audio_data]> (files p.2)) p.2 in
    match transcribe o (wave_of audio_data) with
    | Raise e => (Ok (), processing_failed e (p.1, kept))
    | Ok text =>
        match text_to_latex o text with
        | Raise e =>
            (Ok (), processing_failed e (set_transcribed_text text p.1, kept))
        | Ok latex =>
            (Ok (),
             (set_status_var "Ready"
                (set_latex_text latex
                   (set_trans_text text
                      (set_latex_code latex (set_transcribed_text text p.1)))),
              p.2))
        end
    end.
Proof.
  intros Hi. unfold stop_recording, try_except.
  unfold mbind at 1, M_bind at 1. rewrite (begin_processing_stream s i Hi).
  rewrite process_cases. cbn zeta.
  destruct (transcribe o _) as [text|e]; [|done].
  destruct (text_to_latex o text) as [latex|e]; [|done].
  by destruct s as [a []].
Qed.

Lemma stop_recording_no_recorder_stream (o : Oracle) (s : St) :
  AudioRecorder.stream (recorder s.1) = None →
  ∃ e, stop_recording o s
       = (Ok (), processing_failed e
                   (set_recorder (AudioRecorder.set_recording false (recorder s.1)) s.1,
                    set_portaudio (portaudio s.2) s.2)).
Proof.
  intros Hi. eexists. unfold stop_recording, try_except, begin_processing,
    on_recorder, zoom. unfold mbind at 1 2, M_bind at 1 2.
  by rewrite stop_recording_no_stream.
Qed.

End Stopping.

(** ** Streams in use *)

Lemma active_streams_cons (x : StreamState) (p : list StreamState) :
  active_streams (x :: p) = (is_active x + active_streams p)%nat.
Proof.
  unfold active_streams, is_active. rewrite filter_cons.
  by destruct (decide (x = Active)).
Qed.

Lemma active_streams_snoc (p : list StreamState) (x : StreamState) :
  active_streams (p ++ [x]) = (active_streams p + is_active x)%nat.
Proof.
  induction p as [|y p IH].
  - simpl. rewrite active_streams_cons. unfold active_streams. simpl. lia.
  - simpl. rewrite !active_streams_cons, IH. lia.
Qed.

Lemma active_streams_insert (p : list StreamState) (i : nat) (x y : StreamState) :
  p !! i = Some y →
  (active_streams (<[i := x]> p) + is_active y
   = active_streams p + is_active x)%nat.
Proof.
  revert i. induction p as [|z p IH]; intros i Hi; [done|].
  destruct i as [|i]; simpl in *.
  - injection Hi as ->. rewrite !active_streams_cons. lia.
  - rewrite !active_streams_cons. specialize (IH i Hi). lia.
Qed.

Section Invariant.
Import MainApplication.

Lemma consistent_boot fs clip : consistent (boot fs clip).
Proof. by split. Qed.

Lemma consistent_start (o : Oracle) (w : World) :
  recording w.1 = false → consistent w → consistent (exec (start_recording o) w).
Proof.
  intros Hrec [Hn _]. rewrite Hrec in Hn. unfold exec.
  destruct (InputStream o) as [e|] eqn:Ho; [|destruct (start o) as [e|] eqn:Hs].
  - erewrite start_recording_raises by by apply recorder_start_fails_open.
    split; simpl; rewrite Hrec; [done|congruence].
  - erewrite start_recording_raises by by apply recorder_start_fails_start.
    split; simpl; rewrite Hrec; [|congruence].
    rewrite active_streams_snoc, Hn. done.
  - rewrite start_recording_ok by done. split; simpl.
    + pose proof (active_streams_insert (portaudio w.2 ++ [Opened])
                    (length (portaudio w.2)) Active Opened) as H.
      rewrite active_streams_snoc, Hn in H.
      rewrite lookup_app_r, Nat.sub_diag in H by lia.
      specialize (H eq_refl). unfold is_active in H. simpl in H. lia.
    + intros _. eexists. split; [done|].
      apply list_lookup_insert_eq. rewrite length_app. simpl. lia.
Qed.

Lemma consistent_stop (o : Oracle) (w : World) :
  recording w.1 = true → consistent w → consistent (exec (stop_recording o) w).
Proof.
  intros Hrec [Hn Hi]. rewrite Hrec in Hn. destruct (Hi Hrec) as (i & Hs & Ha).
  unfold exec. rewrite (stop_recording_cases o w i Hs). cbn zeta.
  assert (Hc : active_streams (portaudio (processing w i).2) = 0%nat).
  { simpl. rewrite decide_True by done. rewrite list_insert_insert_eq.
    pose proof (active_streams_insert (portaudio w.2) i Closed Active Ha) as H.
    unfold is_active in H. simpl in H. lia. }
  destruct (transcribe o _) as [text|e];
    [destruct (text_to_latex o text) as [latex|e]|];
    (split; [exact Hc | simpl; congruence]).
Qed.

Lemma consistent_step (w : World) (ev : Oracle * Event) :
  consistent w → consistent (step w ev).
Proof.
  intros Hw. destruct ev as [o []]; unfold step; simpl.
  - unfold exec, toggle_recording, get. unfold mbind at 1, M_bind at 1.
    destruct (recording w.1) eqn:Hrec; simpl.
    + by apply consistent_stop.
    + by apply consistent_start.
  - exact Hw.
  - exact Hw.
  - unfold exec, update_ui, get, mbind, M_bind.
    destruct (recording w.1) eqn:Hrec; [|exact Hw].
    destruct (start_time w.1); [|exact Hw].
    destruct Hw as [Hn Hi]. split; simpl; rewrite Hrec.
    * by rewrite Hrec in Hn.
    * intros _. by apply Hi.
  - destruct Hw as [Hn Hi]. split; [done|]. simpl. intros Hrec.
    destruct (Hi Hrec) as (i & Hs & Ha). exists i. split; [|done].
    unfold AudioRecorder.callback.
    by destruct (AudioRecorder.recording (recorder w.1)).
Qed.

Lemma reachable_consistent (w : World) : reachable w → consistent w.
Proof.
  induction 1 as [fs clip|w ev _ IH];
    [apply consistent_boot | by apply consistent_step].
Qed.

Lemma run_reachable (evs : list (Oracle * Event)) (w : World) :
  reachable w → reachable (run evs w).
Proof.
  revert w. induction evs as [|ev evs IH]; intros w Hw; [done|].
  apply IH. by constructor.
Qed.

End Invariant.

(** ** Stored results along a run *)

Section Results.
Import MainApplication.

Lemma start_recording_frame (o : Oracle) (w : World) :
  let w' := exec (start_recording o) w in
  transcribed_text w'.1 = transcribed_text w.1
  ∧ latex_code w'.1 = latex_code w.1
  ∧ trans_text w'.1 = trans_text w.1
  ∧ latex_text w'.1 = latex_text w.1
  ∧ files w'.2 = files w.2
  ∧ clipboard w'.2 = clipboard w.2.
Proof.
  unfold exec.
  destruct (InputStream o) as [e|] eqn:Ho; [|destruct (start o) as [e|] eqn:Hs].
  - by erewrite start_recording_raises by by apply recorder_start_fails_open.
  - by erewrite start_recording_raises by by apply recorder_start_fails_start.
  - by rewrite start_recording_ok.
Qed.

Lemma toggle_recording_unfold (o : Oracle) (w : World) :
  toggle_recording o w
  = if recording w.1 then stop_recording o w else start_recording o w.
Proof.
  unfold toggle_recording, get. unfold mbind at 1, M_bind at 1.
  by destruct (recording w.1).
Qed.

Lemma update_ui_frame (o : Oracle) (w : World) :
  ∃ status, exec (update_ui o) w = (set_status_var status w.1, w.2).
Proof.
  destruct w as [a os]. unfold exec, update_ui, get, mbind, M_bind. simpl.
  destruct (recording a); [destruct (start_time a)|].
  - by eexists.
  - exists (status_var a). by destruct a.
  - exists (status_var a). by destruct a.
Qed.

Lemma step_keeps_transcript (w : World) (ev : Oracle * Event) :
  transcribes w ev = false →
  transcribed_text (step w ev).1 = transcribed_text w.1.
Proof.
  destruct ev as [o []]; unfold transcribes, step; simpl; intros H; try done.
  - unfold exec. rewrite toggle_recording_unfold.
    destruct (recording w.1); [|apply start_recording_frame].
    destruct (AudioRecorder.stream (recorder w.1)) as [i|] eqn:Hs.
    + rewrite (stop_recording_cases o w i Hs). cbn zeta.
      fold (wave_heard w). by destruct (transcribe o (wave_heard w)).
    + by destruct (stop_recording_no_recorder_stream o w Hs) as [e ->].
  - by destruct (update_ui_frame o w) as [status ->].
Qed.

Lemma step_keeps_latex (w : World) (ev : Oracle * Event) :
  completes w ev = false →
  latex_code (step w ev).1 = latex_code w.1.
Proof.
  destruct ev as [o []]; unfold completes, step; simpl; intros H; try done.
  - unfold exec. rewrite toggle_recording_unfold.
    destruct (recording w.1); [|apply start_recording_frame].
    destruct (AudioRecorder.stream (recorder w.1)) as [i|] eqn:Hs.
    + rewrite (stop_recording_cases o w i Hs). cbn zeta.
      fold (wave_heard w). destruct (transcribe o (wave_heard w)) as [text|]; [|done].
      by destruct (text_to_latex o text).
    + by destruct (stop_recording_no_recorder_stream o w Hs) as [e ->].
  - by destruct (update_ui_frame o w) as [status ->].
Qed.

Lemma never_keeps_transcript (evs : list (Oracle * Event)) (w : World) :
  never transcribes evs w = true →
  transcribed_text (run evs w).1 = transcribed_text w.1.
Proof.
  revert w. induction evs as [|ev evs IH]; intros w H; [done|].
  simpl in H. apply andb_prop in H as [H1 H2].
  apply negb_true_iff in H1.
  change (run (ev :: evs) w) with (run evs (step w ev)).
  by rewrite IH, step_keeps_transcript.
Qed.

Lemma never_keeps_latex (evs : list (Oracle * Event)) (w : World) :
  never completes evs w = true →
  latex_code (run evs w).1 = latex_code w.1.
Proof.
  revert w. induction evs as [|ev evs IH]; intros w H; [done|].
  simpl in H. apply andb_prop in H as [H1 H2].
  apply negb_true_iff in H1.
  change (run (ev :: evs) w) with (run evs (step w ev)).
  by rewrite IH, step_keeps_latex.
Qed.

End Results.

(** ** C3: the recorder checks nothing *)

(** C3, as stated, fails: arming a recorder that is already armed is
    accepted.  After arm and one delivered frame, a second arm returns
    normally, drops the frame and starts a second stream beside the
    first. *)
Lemma arm_while_armed_is_accepted :
  let s := AudioRecorder.deliver [[7]]
             (exec (AudioRecorder.start_recording happy) (AudioRecorder.__init__, [])) in
  AudioRecorder.recording s.1 = true
  ∧ AudioRecorder.audio_data s.1 = [[7]]
  ∧ AudioRecorder.start_recording happy s
    = (Ok (),
       ({| AudioRecorder.audio_queue := [];
           AudioRecorder.recording := true;
           AudioRecorder.audio_data := [];
           AudioRecorder.stream := Some 1%nat |},
        [Active; Active])).
Proof. by vm_compute. Qed.

(** C3, amended.  Disarming a recorder that has never been armed (it has
    no stream yet) is rejected: [stop_recording] raises.  Arming a recorder
    that is already armed is not rejected: when the device opens,
    [start_recording] returns normally with an empty buffer and a new
    stream, and every stream that was running keeps running. *)
Theorem recorder_checks_nothing (o : Oracle) (r : AudioRecorder.t)
        (p : list StreamState) :
  (AudioRecorder.stream r = None →
   ∃ e, outcome AudioRecorder.stop_recording (r, p) = Raise e)
  ∧ (AudioRecorder.recording r = true → device_opens o →
     ∃ r' p',
       AudioRecorder.start_recording o (r, p) = (Ok (), (r', p'))
       ∧ AudioRecorder.recording r' = true
       ∧ AudioRecorder.audio_data r' = []
       ∧ AudioRecorder.stream r' = Some (length p)
       ∧ ∀ i, p !! i = Some Active → p' !! i = Some Active).
Proof.
  split.
  - intros Hs. eexists. unfold outcome. by rewrite stop_recording_no_stream.
  - intros _ Ho. do 2 eexists. rewrite start_recording_opens by done.
    repeat split. intros i Hi.
    rewrite list_lookup_insert_ne, lookup_app_l; eauto using lookup_lt_Some.
    apply lookup_lt_Some in Hi. lia.
Qed.

Lemma recorder_checks_nothing_witness :
  AudioRecorder.stream AudioRecorder.__init__ = None
  ∧ ∃ e, outcome AudioRecorder.stop_recording (AudioRecorder.__init__, []) = Raise e.
Proof.
  split; [reflexivity|].
  exact (proj1 (recorder_checks_nothing happy AudioRecorder.__init__ []) eq_refl).
Defined.

(** ** C4: toggling *)

Lemma stop_recording_idle (o : Oracle) (s : World) :
  reachable s → MainApplication.recording s.1 = true →
  MainApplication.recording (exec (MainApplication.stop_recording o) s).1 = false.
Proof.
  intros Hs Hr. destruct (reachable_consistent s Hs) as [_ Hstream].
  destruct (Hstream Hr) as (i & Hi & _). unfold exec.
  rewrite (stop_recording_cases o s i Hi). cbn zeta.
  destruct (transcribe o _) as [text|e];
    [destruct (text_to_latex o text) as [latex|e]|]; done.
Qed.

(** C4, as stated, fails.  The loop starts, a toggle starts a recording, a
    second toggle stops it; while the handler of that toggle is processing,
    a third toggle is issued.  It waits in the queue and is handled when
    the handler has returned: it starts a recording.  Without it the
    application would rest in Idle with the status "Ready". *)
Lemma toggle_issued_while_processing_starts_recording :
  let l := tk_run [arrive (happy, toggle); enter; leave;
                   arrive (happy, toggle); enter] (tk_boot ∅ EmptyString) in
  let quiet := tk_run [leave] l in
  let pressed := tk_run [arrive (happy, toggle); leave; enter; leave] l in
  processing_now l = true
  ∧ (running quiet, queue quiet) = (None, [])
  ∧ MainApplication.recording (world quiet).1 = false
  ∧ MainApplication.status_var (world quiet).1 = "Ready"%string
  ∧ (running pressed, queue pressed) = (None, [])
  ∧ MainApplication.recording (world pressed).1 = true
  ∧ MainApplication.status_var (world pressed).1 = "Recording..."%string.
Proof. by vm_compute. Qed.

(** C4, amended.  The controller keeps one flag and no Processing state:
    toggle is start-recording exactly when the flag is clear and
    stop-recording exactly when it is set.  Processing runs to its end
    inside the handler of the stopping toggle; a toggle issued meanwhile is
    not handled then but waits in the queue and, when the processing ends
    with both services answering, is handled once the controller is back in
    Idle, as a start-recording request.  It leaves the stored transcript
    and LaTeX result as the processing left them, and when the device opens
    the controller is recording afterwards. *)
Theorem toggle_dispatches_on_flag (o o' : Oracle) (s : World) :
  (MainApplication.recording s.1 = false →
   MainApplication.toggle_recording o s = MainApplication.start_recording o s)
  ∧ (MainApplication.recording s.1 = true →
     MainApplication.toggle_recording o s = MainApplication.stop_recording o s)
  ∧ (reachable s → MainApplication.recording s.1 = true →
     completes s (o, toggle) = true →
     let l := {| world := s; running := Some (o, toggle); queue := [] |} in
     let issued := tk_step l (arrive (o', toggle)) in
     let processed := exec (MainApplication.stop_recording o) s in
     let after := tk_run [leave; enter; leave] issued in
     processing_now l = true
     ∧ world issued = s ∧ running issued = running l
     ∧ queue issued = [(o', toggle)]
     ∧ world (tk_run [leave] l) = processed
     ∧ MainApplication.recording processed.1 = false
     ∧ world after = exec (MainApplication.start_recording o') processed
     ∧ (running after, queue after) = (None, [])
     ∧ MainApplication.transcribed_text (world after).1
       = MainApplication.transcribed_text processed.1
     ∧ MainApplication.latex_code (world after).1
       = MainApplication.latex_code processed.1
     ∧ (device_opens o' → MainApplication.recording (world after).1 = true)).
Proof.
  split; [|split].
  - intros H. by rewrite toggle_recording_unfold, H.
  - intros H. by rewrite toggle_recording_unfold, H.
  - intros Hs Hr _ l issued processed after.
    pose proof (stop_recording_idle o s Hs Hr) as Hidle. fold processed in Hidle.
    assert (Hstop : step s (o, toggle) = processed).
    { change (step s (o, toggle))
        with (exec (MainApplication.toggle_recording o) s).
      unfold exec, processed. by rewrite toggle_recording_unfold, Hr. }
    assert (Hstart : step processed (o', toggle)
                     = exec (MainApplication.start_recording o') processed).
    { change (step processed (o', toggle))
        with (exec (MainApplication.toggle_recording o') processed).
      unfold exec. by rewrite toggle_recording_unfold, Hidle. }
    assert (Hafter : world after
                     = exec (MainApplication.start_recording o') processed).
    { unfold after, issued, l, tk_run. simpl. by rewrite Hstop, Hstart. }
    pose proof (start_recording_frame o' processed) as F. cbn zeta in F.
    destruct F as (Ft & Fl & _).
    assert (Hp : processing_now l = true)
      by (unfold processing_now; simpl; exact Hr).
    assert (Hq : world (tk_run [leave] l) = processed)
      by (unfold l, tk_run; simpl; exact Hstop).
    split; [exact Hp|]. split; [reflexivity|]. split; [reflexivity|].
    split; [reflexivity|]. split; [exact Hq|]. split; [exact Hidle|].
    split; [exact Hafter|]. split; [reflexivity|].
    split; [by rewrite Hafter|]. split; [by rewrite Hafter|].
    intros Ho. rewrite Hafter. unfold exec.
    by rewrite (start_recording_ok o' processed Ho).
Qed.

Lemma toggle_dispatches_on_flag_witness :
  reachable three_frames
  ∧ MainApplication.recording three_frames.1 = true
  ∧ completes three_frames (happy, toggle) = true
  ∧ device_opens happy
  ∧ MainApplication.recording
      (world (tk_run [arrive (happy, toggle); leave; enter; leave]
                {| world := three_frames; running := Some (happy, toggle);
                   queue := [] |})).1 = true.
Proof.
  assert (H : reachable three_frames) by (repeat constructor).
  assert (Ho : device_opens happy) by by split.
  split; [exact H|]. split; [reflexivity|]. split; [reflexivity|].
  split; [exact Ho|].
  pose proof (proj2 (proj2 (toggle_dispatches_on_flag happy happy three_frames))
                H eq_refl eq_refl) as T.
  cbn zeta in T.
  exact (proj2 (proj2 (proj2 (proj2 (proj2 (proj2 (proj2 (proj2 (proj2 (proj2 T)))))))))
           Ho).
Defined.

(** ** C5: a failing service *)

(** C5, as stated, fails for the stored transcript: when the speech model
    answers and the chat endpoint fails, the controller is back in Idle but
    the stored transcript is the new one, not the one from before the
    session. *)
Lemma formatting_failure_replaces_stored_transcript :
  let s' := exec (MainApplication.stop_recording offline) recording_world in
  transcribe offline (wave_heard recording_world) = Ok "x squared"%string
  ∧ text_to_latex offline "x squared"
    = Raise (Exn "APIConnectionError" "Connection error.")
  ∧ MainApplication.recording s'.1 = false
  ∧ MainApplication.transcribed_text recording_world.1 = EmptyString
  ∧ MainApplication.transcribed_text s'.1 = "x squared"%string.
Proof. by vm_compute. Qed.

(** C5, amended.  When a recording is stopped and the speech model or the
    chat endpoint raises, the controller is in Idle afterwards, the
    displayed transcript and LaTeX and the stored LaTeX result are as
    before, and the error is shown in exactly one dialog.  The stored
    transcript is as before when the speech model raised; when the chat
    endpoint raised it is the transcript the speech model returned. *)
Theorem failure_returns_to_idle (o : Oracle) (s : World) (e : exn) :
  reachable s →
  MainApplication.recording s.1 = true →
  (transcribe o (wave_heard s) = Raise e
   ∨ ∃ text, transcribe o (wave_heard s) = Ok text ∧ text_to_latex o text = Raise e) →
  let s' := exec (MainApplication.stop_recording o) s in
  MainApplication.recording s'.1 = false
  ∧ MainApplication.trans_text s'.1 = MainApplication.trans_text s.1
  ∧ MainApplication.latex_text s'.1 = MainApplication.latex_text s.1
  ∧ MainApplication.latex_code s'.1 = MainApplication.latex_code s.1
  ∧ dialogs s'.2
    = dialogs s.2 ++ [("Error"%string, "Processing failed: " +:+ exn_str e)]
  ∧ (transcribe o (wave_heard s) = Raise e →
     MainApplication.transcribed_text s'.1 = MainApplication.transcribed_text s.1)
  ∧ (∀ text, transcribe o (wave_heard s) = Ok text →
             MainApplication.transcribed_text s'.1 = text).
Proof.
  intros Hreach Hrec Hfail.
  destruct (reachable_consistent s Hreach) as [_ Hi].
  destruct (Hi Hrec) as (i & Hs & _).
  unfold exec. rewrite (stop_recording_cases o s i Hs). cbn zeta.
  fold (wave_heard s).
  destruct Hfail as [Ht|(text & Ht & Hl)]; rewrite Ht; [|rewrite Hl]; simpl;
    repeat split; try done; intros; congruence.
Qed.

Lemma failure_returns_to_idle_witness :
  reachable recording_world
  ∧ MainApplication.recording recording_world.1 = true
  ∧ transcribe deaf (wave_heard recording_world)
    = Raise (Exn "RuntimeError" "Failed to load audio")
  ∧ MainApplication.recording
      (exec (MainApplication.stop_recording deaf) recording_world).1 = false.
Proof.
  assert (H : reachable recording_world) by (repeat constructor).
  split; [exact H|]. split; [reflexivity|]. split; [reflexivity|].
  exact (proj1 (failure_returns_to_idle deaf recording_world _ H eq_refl
                  (or_introl eq_refl))).
Defined.

(** ** C6: the device does not open *)

(** C6, on the code.  With no input device, [AudioRecorder.start_recording]
    raises to its caller; the controller shows one dialog, stays in Idle and
    builds no stream; but the recorder's own flag has been set before the
    device was opened and stays set. *)
Theorem failed_open_leaves_recorder_flag_set :
  let r := AudioRecorder.start_recording no_device (AudioRecorder.__init__, []) in
  let s := exec (MainApplication.start_recording no_device) (boot ∅ EmptyString) in
  r.1 = Raise (Exn "PortAudioError" "Error querying device -1")
  ∧ AudioRecorder.recording r.2.1 = true
  ∧ MainApplication.recording s.1 = false
  ∧ AudioRecorder.recording (MainApplication.recorder s.1) = true
  ∧ portaudio s.2 = []
  ∧ dialogs s.2
    = [("Error"%string,
        "Failed to start recording: Error querying device -1"%string)].
Proof. by vm_compute. Qed.

(** The same on every state: whichever of the two device calls raises, the
    exception reaches the caller and the recorder's flag is set. *)
Lemma recorder_start_raises_armed (o : Oracle) (s : AudioRecorder.St) (e : exn) :
  InputStream o = Some e ∨ (InputStream o = None ∧ start o = Some e) →
  outcome (AudioRecorder.start_recording o) s = Raise e
  ∧ AudioRecorder.recording (exec (AudioRecorder.start_recording o) s).1 = true.
Proof.
  destruct s as [r p]. unfold outcome, exec. intros [Ho|[Ho Hs]].
  - by rewrite (recorder_start_fails_open o e r p Ho).
  - by rewrite (recorder_start_fails_start o e r p Ho Hs).
Qed.

(** On every state the controller stays as it was, but for the dialog. *)
Lemma start_failure_stays_idle (o : Oracle) (s : World) (e : exn) :
  InputStream o = Some e ∨ (InputStream o = None ∧ start o = Some e) →
  let s' := exec (MainApplication.start_recording o) s in
  MainApplication.recording s'.1 = MainApplication.recording s.1
  ∧ dialogs s'.2
    = dialogs s.2 ++ [("Error"%string, "Failed to start recording: " +:+ exn_str e)].
Proof.
  unfold exec. intros [Ho|[Ho Hs]].
  - by erewrite start_recording_raises by by apply recorder_start_fails_open.
  - by erewrite start_recording_raises by by apply recorder_start_fails_start.
Qed.

(** ** C7: the life of the buffer *)

(** C7.  Arming leaves an empty buffer; a delivered block is appended while
    armed and never shortens the buffer; after disarm no delivered block
    changes the buffer, which stays the one that was returned; and in every
    state the application can reach at most one session is open, one
    exactly while the controller is recording. *)
Theorem buffer_lifecycle :
  (∀ o s, AudioRecorder.audio_data (exec (AudioRecorder.start_recording o) s).1 = [])
  ∧ (∀ indata r, AudioRecorder.recording r = true →
       AudioRecorder.audio_data (AudioRecorder.callback indata r)
       = AudioRecorder.audio_data r ++ indata)
  ∧ (∀ indata r,
       (length (AudioRecorder.audio_data r)
        ≤ length (AudioRecorder.audio_data (AudioRecorder.callback indata r)))%nat)
  ∧ (∀ s buf s' blocks,
       AudioRecorder.stop_recording s = (Ok buf, s') →
       buf = AudioRecorder.audio_data s.1
       ∧ AudioRecorder.audio_data (deliver_all blocks s').1 = buf)
  ∧ (∀ w, reachable w →
       (open_sessions w ≤ 1)%nat
       ∧ (open_sessions w = 1%nat ↔ MainApplication.recording w.1 = true)).
Proof.
  repeat apply conj.
  - intros o [r p]. unfold exec.
    destruct (InputStream o) as [e|] eqn:Ho; [|destruct (start o) as [e|] eqn:Hs].
    + by rewrite (recorder_start_fails_open o e r p Ho).
    + by rewrite (recorder_start_fails_start o e r p Ho Hs).
    + by rewrite start_recording_opens.
  - intros indata r Hr. unfold AudioRecorder.callback. by rewrite Hr.
  - intros indata r. unfold AudioRecorder.callback.
    destruct (AudioRecorder.recording r); simpl; [|done].
    rewrite length_app. lia.
  - intros [r p] buf s' blocks Hstop.
    destruct (AudioRecorder.stream r) as [i|] eqn:Hs.
    + rewrite (stop_recording_stream r p i Hs) in Hstop.
      injection Hstop as <- <-. split; [done|].
      by rewrite deliver_all_disarmed.
    + by rewrite (stop_recording_no_stream r p Hs) in Hstop.
  - intros w Hw. destruct (reachable_consistent w Hw) as [Hn _].
    unfold open_sessions. rewrite Hn.
    destruct (MainApplication.recording w.1); (split; [lia|]); split; (lia || done).
Qed.

Lemma buffer_lifecycle_witness :
  reachable recording_world ∧ (open_sessions recording_world ≤ 1)%nat.
Proof.
  assert (H : reachable recording_world) by (repeat constructor).
  split; [exact H|].
  exact (proj1 (proj2 (proj2 (proj2 (proj2 buffer_lifecycle))) recording_world H)).
Defined.

(** ** C8: the temporary wave file *)

(** C8, on the code.  The file written for a session is a wave file of one
    channel, two bytes a sample, 16000 frames a second, holding the
    recorded samples.  When both services answer, the file is gone after
    the handler; when the speech model or the chat endpoint raises, the
    handler leaves the file in the temporary directory. *)
Theorem failed_session_leaves_wave_file :
  let heard := Wave 1 2 16000 [1; 0; 2; 0; 253; 255] in
  wave_heard three_frames = heard
  ∧ files three_frames.2 = ∅
  ∧ files (step three_frames (happy, toggle)).2 = ∅
  ∧ files (step three_frames (deaf, toggle)).2 = {[ 0%nat := heard ]}
  ∧ files (step three_frames (offline, toggle)).2 = {[ 0%nat := heard ]}.
Proof. by vm_compute. Qed.

(** The same on every state in which a recording can be stopped. *)
Lemma stop_recording_files (o : Oracle) (s : World) (i : nat) :
  AudioRecorder.stream (MainApplication.recorder s.1) = Some i →
  let s' := exec (MainApplication.stop_recording o) s in
  files s.2 !! tmp_name s.2 = None
  ∧ (completes s (o, toggle) = true → files s'.2 = files s.2)
  ∧ (MainApplication.recording s.1 = true → completes s (o, toggle) = false →
     files s'.2 = <[tmp_name s.2 := wave_heard s]> (files s.2)).
Proof.
  intros Hs. split.
  { unfold tmp_name. apply not_elem_of_dom_1, is_fresh. }
  unfold exec, completes. simpl.
  rewrite (stop_recording_cases o s i Hs). cbn zeta. fold (wave_heard s).
  destruct (transcribe o (wave_heard s)) as [text|e];
    [destruct (text_to_latex o text) as [latex|e]|]; simpl;
    (split; [intros H | intros -> H]); try done;
    by apply andb_prop in H as [_ ?].
Qed.

(** ** C9: the stored results before any result *)

(** C9, as stated, fails for the transcript: after a session in which the
    speech model answered and the chat endpoint failed, no session has
    completed successfully, yet the stored transcript is not empty and
    copy-transcript copies it. *)
Lemma transcript_stored_without_completed_session :
  let evs := [(happy, toggle); (offline, toggle)] in
  let w := run evs (boot ∅ EmptyString) in
  never completes evs (boot ∅ EmptyString) = true
  ∧ MainApplication.transcribed_text w.1 = "x squared"%string
  ∧ clipboard (exec MainApplication.copy_text w).2 = "x squared"%string.
Proof. by vm_compute. Qed.

(** C9, amended.  As long as no stopped recording has been transcribed, the
    stored transcript is the empty string and copy-transcript copies the
    empty string; as long as no session has completed successfully, the
    stored LaTeX result is the empty string and copy-LaTeX copies the empty
    string.  Both hold in the initial state. *)
Theorem results_empty_until_produced (evs : list (Oracle * Event))
        (fs : gmap nat File) (clip : string) :
  let w := run evs (boot fs clip) in
  (never transcribes evs (boot fs clip) = true →
   MainApplication.transcribed_text w.1 = EmptyString
   ∧ clipboard (exec MainApplication.copy_text w).2 = EmptyString)
  ∧ (never completes evs (boot fs clip) = true →
     MainApplication.latex_code w.1 = EmptyString
     ∧ clipboard (exec MainApplication.copy_latex w).2 = EmptyString)
  ∧ clipboard (exec MainApplication.copy_text (boot fs clip)).2 = EmptyString
  ∧ clipboard (exec MainApplication.copy_latex (boot fs clip)).2 = EmptyString.
Proof.
  intros w. split; [|split; [|done]].
  - intros H. apply never_keeps_transcript in H. by split.
  - intros H. apply never_keeps_latex in H. by split.
Qed.

Lemma results_empty_until_produced_witness :
  let evs := [(happy, toggle); (happy, audio [[5]]); (deaf, toggle);
              (no_device, toggle); (happy, copy_latex)] in
  never transcribes evs (boot ∅ "clip") = true
  ∧ MainApplication.transcribed_text (run evs (boot ∅ "clip")).1 = EmptyString.
Proof.
  intros evs. split; [reflexivity|].
  exact (proj1 (proj1 (results_empty_until_produced evs ∅ "clip") eq_refl)).
Defined.

(** ** C10: the copy actions *)

(** C10.  Copy-transcript and copy-LaTeX return normally and leave the
    stored transcript, the stored LaTeX result, the recording flag and the
    recorder with its buffer as they were: of the application object only
    the status text changes; outside it only the clipboard, which receives
    the stored string. *)
Theorem copy_changes_status_only (s : World) :
  MainApplication.copy_text s
  = (Ok (), (MainApplication.set_status_var "Text copied to clipboard!" s.1,
             set_clipboard (MainApplication.transcribed_text s.1) s.2))
  ∧ MainApplication.copy_latex s
    = (Ok (), (MainApplication.set_status_var "LaTeX copied to clipboard!" s.1,
               set_clipboard (MainApplication.latex_code s.1) s.2))
  ∧ same_but_status (exec MainApplication.copy_text s).1 s.1
  ∧ same_but_status (exec MainApplication.copy_latex s).1 s.1.
Proof. by repeat split. Qed.

(** * Further properties of the code *)

(** ** What the events other than a toggle leave alone *)

Section Frames.
Import MainApplication.

Lemma step_tick (o : Oracle) (w : World) :
  ∃ status, step w (o, tick) = (set_status_var status w.1, w.2).
Proof. apply update_ui_frame. Qed.

Lemma step_toggle (o : Oracle) (w : World) :
  step w (o, toggle)
  = if recording w.1 then exec (stop_recording o) w else exec (start_recording o) w.
Proof.
  change (step w (o, toggle)) with (exec (toggle_recording o) w).
  unfold exec. rewrite toggle_recording_unfold. by destruct (recording w.1).
Qed.

Lemma step_toggle_owned (w : World) (ev : Oracle * Event) :
  is_toggle ev = false → toggle_owned (step w ev) = toggle_owned w.
Proof.
  destruct ev as [o []]; intros H; try discriminate H; try done.
  - destruct (step_tick o w) as [status ->]. reflexivity.
  - unfold toggle_owned, step, AudioRecorder.callback. simpl.
    destruct (recorder w.1) as [q [] d st]; reflexivity.
Qed.

Lemma step_audio_data (w : World) (ev : Oracle * Event) :
  is_toggle ev = false →
  AudioRecorder.audio_data (recorder (step w ev).1)
  = AudioRecorder.audio_data (recorder w.1)
    ++ (if AudioRecorder.recording (recorder w.1) then frames_heard [ev] else []).
Proof.
  destruct ev as [o []]; intros H; try discriminate H; try done.
  - unfold frames_heard. simpl.
    by destruct (AudioRecorder.recording _); rewrite app_nil_r.
  - unfold frames_heard. simpl.
    by destruct (AudioRecorder.recording _); rewrite app_nil_r.
  - destruct (step_tick o w) as [status ->]. unfold frames_heard. simpl.
    by destruct (AudioRecorder.recording _); rewrite app_nil_r.
  - unfold frames_heard, step, AudioRecorder.callback. simpl.
    destruct (recorder w.1) as [q [] d st]; simpl; by rewrite app_nil_r.
Qed.

Lemma step_clipboard (w : World) (ev : Oracle * Event) :
  is_copy ev = false → clipboard (step w ev).2 = clipboard w.2.
Proof.
  destruct ev as [o []]; intros H; try discriminate H; try done.
  - rewrite step_toggle.
    destruct (recording w.1); [|apply start_recording_frame].
    destruct (AudioRecorder.stream (recorder w.1)) as [i|] eqn:Hs.
    + unfold exec. rewrite (stop_recording_cases o w i Hs). cbn zeta.
      destruct (transcribe o _) as [text|e];
        [destruct (text_to_latex o text) as [latex|e]|]; done.
    + unfold exec.
      by destruct (stop_recording_no_recorder_stream o w Hs) as [e ->].
  - by destruct (step_tick o w) as [status ->].
Qed.

End Frames.

(** The copy bindings, the timer and the audio thread change nothing of
    what the toggle owns (flag, start time, stored and displayed results,
    button, recorder flag and stream, streams, files, dialogs); while the
    recorder is armed the buffer grows by the delivered frames and by
    nothing else; and no event but a copy changes the clipboard. *)
Theorem only_toggle_changes_session (w : World) (ev : Oracle * Event) :
  (is_toggle ev = false →
   toggle_owned (step w ev) = toggle_owned w
   ∧ AudioRecorder.audio_data (MainApplication.recorder (step w ev).1)
     = AudioRecorder.audio_data (MainApplication.recorder w.1)
       ++ (if AudioRecorder.recording (MainApplication.recorder w.1)
           then frames_heard [ev] else []))
  ∧ (is_copy ev = false → clipboard (step w ev).2 = clipboard w.2).
Proof.
  split.
  - intros H. split; [by apply step_toggle_owned | by apply step_audio_data].
  - apply step_clipboard.
Qed.

Lemma only_toggle_changes_session_witness :
  is_toggle (happy, audio [[4]; [5]]) = false
  ∧ toggle_owned (step three_frames (happy, audio [[4]; [5]]))
    = toggle_owned three_frames.
Proof.
  split; [reflexivity|].
  exact (proj1 (proj1 (only_toggle_changes_session three_frames
                         (happy, audio [[4]; [5]])) eq_refl)).
Defined.

(** ** A whole session, from toggle to toggle *)

Section EndToEnd.
Import MainApplication.

Lemma frames_heard_cons (ev : Oracle * Event) (evs : list (Oracle * Event)) :
  frames_heard (ev :: evs) = frames_heard [ev] ++ frames_heard evs.
Proof. unfold frames_heard. simpl. by rewrite app_nil_r. Qed.

Lemma run_cons (ev : Oracle * Event) (evs : list (Oracle * Event)) (w : World) :
  run (ev :: evs) w = run evs (step w ev).
Proof. done. Qed.

Lemma run_snoc (evs : list (Oracle * Event)) (ev : Oracle * Event) (w : World) :
  run (evs ++ [ev]) w = step (run evs w) ev.
Proof. unfold run. by rewrite foldl_app. Qed.

Lemma run_without_toggle (evs : list (Oracle * Event)) (w : World) :
  Forall (λ ev, is_toggle ev = false) evs →
  toggle_owned (run evs w) = toggle_owned w
  ∧ (AudioRecorder.recording (recorder w.1) = true →
     AudioRecorder.audio_data (recorder (run evs w).1)
     = AudioRecorder.audio_data (recorder w.1) ++ frames_heard evs).
Proof.
  intros Hevs. revert w. induction Hevs as [|ev evs Hev _ IH]; intros w.
  - split; [done|]. intros _. simpl. by rewrite app_nil_r.
  - rewrite run_cons. destruct (IH (step w ev)) as [IHo IHa].
    pose proof (step_toggle_owned w ev Hev) as Ho.
    split; [by rewrite IHo|]. intros Hrec.
    rewrite (frames_heard_cons ev evs), IHa, (step_audio_data w ev Hev), Hrec.
    + by rewrite app_assoc.
    + unfold toggle_owned in Ho. injection Ho as _ _ _ _ _ _ _ -> _ _ _ _. done.
Qed.

End EndToEnd.

(** From any state in which the controller is idle: a toggle with a device
    that opens, then any events but toggles, then a toggle whose services
    both answer.  The speech model is given the wave file of exactly the
    frames delivered in between; afterwards the controller is idle again,
    the transcript and the stripped LaTeX answer are stored and displayed,
    the status reads "Ready", and the temporary directory and the dialogs
    are as they were before the session. *)
Theorem session_end_to_end (w : World) (o1 o2 : Oracle)
        (evs : list (Oracle * Event)) (text latex : string) :
  MainApplication.recording w.1 = false →
  device_opens o1 →
  Forall (λ ev, is_toggle ev = false) evs →
  transcribe o2 (wave_of (frames_heard evs)) = Ok text →
  text_to_latex o2 text = Ok latex →
  let w' := run ((o1, toggle) :: evs ++ [(o2, toggle)]) w in
  MainApplication.recording w'.1 = false
  ∧ MainApplication.transcribed_text w'.1 = text
  ∧ MainApplication.latex_code w'.1 = latex
  ∧ MainApplication.trans_text w'.1 = text
  ∧ MainApplication.latex_text w'.1 = latex
  ∧ MainApplication.status_var w'.1 = "Ready"%string
  ∧ MainApplication.record_btn w'.1 = ("Start Recording"%string, SUCCESS)
  ∧ files w'.2 = files w.2
  ∧ dialogs w'.2 = dialogs w.2.
Proof.
  intros Hidle Ho1 Hevs Ht Hl w'. subst w'.
  rewrite run_cons, run_snoc.
  assert (H1 : step w (o1, toggle) = exec (MainApplication.start_recording o1) w)
    by by rewrite step_toggle, Hidle.
  unfold exec in H1. rewrite (start_recording_ok o1 w Ho1) in H1. simpl in H1.
  destruct (run_without_toggle evs (step w (o1, toggle)) Hevs) as [Hown Haudio].
  rewrite H1 in Hown, Haudio. simpl in Haudio. specialize (Haudio eq_refl).
  rewrite H1. set (w2 := run evs _) in *.
  unfold toggle_owned in Hown. simpl in Hown.
  injection Hown as Hrec Hst Htt Hlc Hbtn Htr Hlt Harm Hstream Hpa Hfiles Hdlg.
  rewrite step_toggle, Hrec. unfold exec.
  rewrite (stop_recording_cases o2 w2 _ Hstream). cbn zeta.
  rewrite Haudio, Ht, Hl. simpl. by repeat split.
Qed.

Lemma session_end_to_end_witness :
  let evs := [(happy, audio [[1]; [2]]); (happy, tick); (happy, copy_text);
              (happy, audio [[-3]])] in
  MainApplication.recording (boot ∅ EmptyString).1 = false
  ∧ device_opens happy
  ∧ Forall (λ ev, is_toggle ev = false) evs
  ∧ transcribe happy (wave_of (frames_heard evs)) = Ok "A equals tan inverse x"%string
  ∧ text_to_latex happy "A equals tan inverse x" = Ok "A = \tan^{-1}(x)"%string
  ∧ MainApplication.latex_text
      (run ((happy, toggle) :: evs ++ [(happy, toggle)]) (boot ∅ EmptyString)).1
    = "A = \tan^{-1}(x)"%string.
Proof.
  intros evs.
  assert (Ho : device_opens happy) by by split.
  assert (He : Forall (λ ev, is_toggle ev = false) evs) by (repeat constructor).
  split; [reflexivity|]. split; [exact Ho|]. split; [exact He|].
  split; [reflexivity|]. split; [reflexivity|].
  exact (proj1 (proj2 (proj2 (proj2 (proj2
           (session_end_to_end (boot ∅ EmptyString) happy happy evs _ _
              eq_refl Ho He eq_refl eq_refl)))))).
Defined.

(** ** The window and the controller agree *)

Section Window.
Import MainApplication.

Lemma ui_consistent_step (w : World) (ev : Oracle * Event) :
  consistent w → ui_consistent w → ui_consistent (step w ev).
Proof.
  intros [_ Hstream] (Hbtn & Hrec & Hlatex). destruct ev as [o e].
  destruct e.
  - rewrite step_toggle. destruct (recording w.1) eqn:Hr.
    + destruct (Hstream eq_refl) as (i & Hs & _). unfold exec.
      rewrite (stop_recording_cases o w i Hs). cbn zeta.
      destruct (transcribe o _) as [text|e];
        [destruct (text_to_latex o text) as [latex|e]|];
        (split; [done|]; split; [done|]; done).
    + unfold exec.
      destruct (InputStream o) as [e|] eqn:Ho; [|destruct (start o) as [e|] eqn:Hst].
      * erewrite start_recording_raises by by apply recorder_start_fails_open.
        split; [by simpl; rewrite Hr|]. split; [by simpl; rewrite Hr|done].
      * erewrite start_recording_raises by by apply recorder_start_fails_start.
        split; [by simpl; rewrite Hr|]. split; [by simpl; rewrite Hr|done].
      * rewrite start_recording_ok by done.
        split; [done|]. split; [by split; [eexists|]|done].
  - done.
  - done.
  - destruct (step_tick o w) as [status ->].
    split; [done|]. split; done.
  - unfold ui_consistent, step. simpl. split; [done|]. split; [|done].
    intros Hr. destruct (Hrec Hr) as [H1 H2]. split; [done|].
    unfold AudioRecorder.callback. by rewrite H2.
Qed.

Lemma reachable_ui_consistent (w : World) : reachable w → ui_consistent w.
Proof.
  induction 1 as [fs clip|w ev Hw IH].
  - split; [done|]. split; done.
  - apply ui_consistent_step; [by apply reachable_consistent | done].
Qed.

End Window.

(** In every state the application can reach, the button says what the
    next toggle does ("Stop Recording" while the controller records,
    "Start Recording" otherwise); while the controller records, the start
    time is set and the recorder is armed with exactly one stream running;
    and the LaTeX box holds the stored LaTeX result, the string that
    copy-LaTeX copies. *)
Theorem window_agrees_with_controller (w : World) :
  reachable w →
  MainApplication.record_btn w.1 = shown_button (MainApplication.recording w.1)
  ∧ (MainApplication.recording w.1 = true →
     is_Some (MainApplication.start_time w.1)
     ∧ AudioRecorder.recording (MainApplication.recorder w.1) = true
     ∧ open_sessions w = 1%nat)
  ∧ MainApplication.latex_text w.1 = MainApplication.latex_code w.1
  ∧ clipboard (exec MainApplication.copy_latex w).2 = MainApplication.latex_text w.1.
Proof.
  intros Hw. destruct (reachable_ui_consistent w Hw) as (Hbtn & Hrec & Hlatex).
  destruct (reachable_consistent w Hw) as [Hn _].
  split; [done|]. split; [|by split].
  intros Hr. destruct (Hrec Hr) as [? ?]. repeat split; try done.
  unfold open_sessions. by rewrite Hn, Hr.
Qed.

Lemma window_agrees_with_controller_witness :
  reachable three_frames
  ∧ MainApplication.record_btn three_frames.1 = ("Stop Recording"%string, DANGER).
Proof.
  assert (H : reachable three_frames) by (repeat constructor).
  split; [exact H|].
  exact (proj1 (window_agrees_with_controller three_frames H)).
Defined.

(** ** The timer *)

(** In every state the application can reach, [update_ui] returns
    normally: whenever the controller's flag is set a start time is there
    to subtract.  It changes the status text at most, and while the
    controller is not recording it changes nothing, so "Ready", "Error
    occurred" and the copy notices stay until the next action. *)
Theorem update_ui_never_raises (w : World) (o : Oracle) :
  reachable w →
  outcome (MainApplication.update_ui o) w = Ok ()
  ∧ same_but_status (exec (MainApplication.update_ui o) w).1 w.1
  ∧ (exec (MainApplication.update_ui o) w).2 = w.2
  ∧ (MainApplication.recording w.1 = false →
     exec (MainApplication.update_ui o) w = w).
Proof.
  intros Hw. destruct (reachable_ui_consistent w Hw) as (_ & Hrec & _).
  destruct w as [a os]. simpl in Hrec.
  unfold outcome, exec, MainApplication.update_ui, get, mbind, M_bind. simpl.
  destruct (MainApplication.recording a) eqn:Hr.
  - destruct (Hrec eq_refl) as [[t0 Ht0] _]. rewrite Ht0. simpl.
    split; [done|]. split; [by repeat split|]. split; [done|]. done.
  - simpl. split; [done|]. split; [by repeat split|]. split; done.
Qed.

Lemma update_ui_never_raises_witness :
  reachable three_frames
  ∧ outcome (MainApplication.update_ui happy) three_frames = Ok ().
Proof.
  assert (H : reachable three_frames) by (repeat constructor).
  split; [exact H|].
  exact (proj1 (update_ui_never_raises three_frames happy H)).
Defined.

(** ** The temporary directory *)

Section Directory.
Import MainApplication.

Lemma toggle_owned_os (a b : World) :
  toggle_owned a = toggle_owned b →
  files a.2 = files b.2 ∧ dialogs a.2 = dialogs b.2.
Proof.
  unfold toggle_owned. intros H.
  injection H as _ _ _ _ _ _ _ _ _ _ Hf Hd. done.
Qed.

Lemma step_files (w : World) (ev : Oracle * Event) :
  files w.2 ⊆ files (step w ev).2.
Proof.
  destruct (is_toggle ev) eqn:Hev.
  - destruct ev as [o []]; try done. rewrite step_toggle.
    destruct (recording w.1).
    + destruct (AudioRecorder.stream (recorder w.1)) as [i|] eqn:Hs.
      * assert (Hfresh : files w.2 ⊆ <[tmp_name w.2 := wave_heard w]> (files w.2)).
        { apply insert_subseteq. unfold tmp_name. apply not_elem_of_dom_1, is_fresh. }
        unfold exec. rewrite (stop_recording_cases o w i Hs). cbn zeta.
        destruct (transcribe o _) as [text|e];
          [destruct (text_to_latex o text) as [latex|e]|]; done.
      * unfold exec.
        by destruct (stop_recording_no_recorder_stream o w Hs) as [e ->].
    + destruct (start_recording_frame o w) as (_ & _ & _ & _ & -> & _). done.
  - by destruct (toggle_owned_os _ _ (step_toggle_owned w ev Hev)) as [-> _].
Qed.

End Directory.

(** Stopping a recording writes the wave file under a name no file in the
    temporary directory has.  When both services answer, the directory is
    afterwards exactly as before; otherwise it holds exactly one file more,
    the wave file of the recording. *)
Theorem temporary_file_of_a_session (w : World) (o : Oracle) :
  reachable w →
  MainApplication.recording w.1 = true →
  let w' := step w (o, toggle) in
  files w.2 !! tmp_name w.2 = None
  ∧ (completes w (o, toggle) = true → files w'.2 = files w.2)
  ∧ (completes w (o, toggle) = false →
     files w'.2 = <[tmp_name w.2 := wave_heard w]> (files w.2)
     ∧ size (files w'.2) = S (size (files w.2))).
Proof.
  intros Hw Hr. destruct (reachable_consistent w Hw) as [_ Hstream].
  destruct (Hstream Hr) as (i & Hs & _).
  destruct (stop_recording_files o w i Hs) as (Hfresh & Hok & Hfail).
  cbn zeta. rewrite step_toggle, Hr.
  split; [done|]. split; [done|].
  intros Hc. rewrite (Hfail Hr Hc). split; [done|].
  by apply map_size_insert_None.
Qed.

Lemma temporary_file_of_a_session_witness :
  reachable three_frames
  ∧ MainApplication.recording three_frames.1 = true
  ∧ completes three_frames (happy, toggle) = true
  ∧ files (step three_frames (happy, toggle)).2 = files three_frames.2.
Proof.
  assert (H : reachable three_frames) by (repeat constructor).
  split; [exact H|]. split; [reflexivity|]. split; [reflexivity|].
  exact (proj1 (proj2 (temporary_file_of_a_session three_frames happy H eq_refl))
           eq_refl).
Defined.

(** Whatever happens, from whatever state: no file that is in the temporary
    directory is removed or overwritten; the only file the application ever
    removes is the wave file it has just written. *)
Theorem existing_files_are_kept (evs : list (Oracle * Event)) (w : World) :
  files w.2 ⊆ files (run evs w).2.
Proof.
  revert w. induction evs as [|ev evs IH]; intros w; [done|].
  etrans; [apply (step_files w ev) | apply IH].
Qed.

(** ** The error dialogs *)

Section Dialogs.
Import MainApplication.

Lemma toggles_cons (ev : Oracle * Event) (evs : list (Oracle * Event)) :
  toggles (ev :: evs) = ((if is_toggle ev then 1 else 0) + toggles evs)%nat.
Proof.
  unfold toggles. rewrite filter_cons.
  destruct (is_toggle ev); case_decide; simpl; congruence.
Qed.

Lemma step_dialogs (w : World) (ev : Oracle * Event) :
  ∃ more, dialogs (step w ev).2 = dialogs w.2 ++ more
          ∧ (length more ≤ if is_toggle ev then 1 else 0)%nat
          ∧ Forall (λ d, d.1 = "Error"%string) more.
Proof.
  destruct (is_toggle ev) eqn:Hev.
  - destruct ev as [o []]; try done. rewrite step_toggle.
    assert (Hnone : ∀ d : list (string * string),
              ∃ more, d = d ++ more ∧ (length more ≤ 1)%nat
                      ∧ Forall (λ d, d.1 = "Error"%string) more).
    { intros d. exists []. rewrite app_nil_r.
      split; [done|]. split; [simpl; lia | constructor]. }
    assert (Hone : ∀ (d : list (string * string)) msg,
              ∃ more, d ++ [("Error"%string, msg)] = d ++ more ∧ (length more ≤ 1)%nat
                      ∧ Forall (λ d, d.1 = "Error"%string) more).
    { intros d msg. eexists. split; [done|].
      split; [simpl; lia | by constructor]. }
    destruct (recording w.1).
    + destruct (AudioRecorder.stream (recorder w.1)) as [i|] eqn:Hs.
      * unfold exec. rewrite (stop_recording_cases o w i Hs). cbn zeta.
        destruct (transcribe o _) as [text|e];
          [destruct (text_to_latex o text) as [latex|e]|];
          [apply Hnone | apply Hone | apply Hone].
      * unfold exec.
        destruct (stop_recording_no_recorder_stream o w Hs) as [e ->]. apply Hone.
    + unfold exec.
      destruct (InputStream o) as [e|] eqn:Ho; [|destruct (start o) as [e|] eqn:Hst].
      * erewrite start_recording_raises by by apply recorder_start_fails_open.
        apply Hone.
      * erewrite start_recording_raises by by apply recorder_start_fails_start.
        apply Hone.
      * rewrite start_recording_ok by done. apply Hnone.
  - destruct (toggle_owned_os _ _ (step_toggle_owned w ev Hev)) as [_ ->].
    exists []. rewrite app_nil_r.
    split; [done|]. split; [simpl; lia | constructor].
Qed.

End Dialogs.

(** Along any run the dialogs shown are only added to, never removed; each
    is an "Error" box, and there are at most as many new ones as there were
    toggles: the copy bindings, the timer and the audio thread show
    none. *)
Theorem at_most_one_dialog_a_toggle (evs : list (Oracle * Event)) (w : World) :
  ∃ more, dialogs (run evs w).2 = dialogs w.2 ++ more
          ∧ (length more ≤ toggles evs)%nat
          ∧ Forall (λ d, d.1 = "Error"%string) more.
Proof.
  revert w. induction evs as [|ev evs IH]; intros w.
  - exists []. rewrite app_nil_r.
    split; [done|]. split; [simpl; lia | constructor].
  - destruct (step_dialogs w ev) as (m1 & H1 & L1 & F1).
    destruct (IH (step w ev)) as (m2 & H2 & L2 & F2).
    exists (m1 ++ m2). rewrite run_cons, H2, H1, toggles_cons, length_app.
    split; [by rewrite app_assoc|]. split; [lia|]. by apply Forall_app.
Qed.
